(** * ouvprofilchrome: resolving a Chrome profile display name and launching it

    A shallow embedding of [src/ouvprofilchrome.py].  The script reads
    Chrome's [Local State] JSON document, searches [profile.info_cache] for
    the directory whose visible name matches a requested display name, and
    spawns Chrome bound to that directory.

    The embedding keeps the script's three functions under their own names.
    What the script asks of its surroundings (the file system, the JSON
    parser, [subprocess.Popen]) is collected in a [World] of oracles; what it
    does to them (reads, prints, spawns) is recorded in a [State] threaded by
    a small state-and-exception monad.

    Modelling choices: a [print] to standard output may raise, as the world
    decides line by line, while a [print] to the error stream succeeds (that
    stream escapes what it cannot encode); only exceptions deriving from
    [Exception] are modelled (no [KeyboardInterrupt]); a Python [str] is a
    Rocq [string], compared character by character. *)

From Stdlib Require Import String Ascii List ZArith Bool Lia DecimalString.
From Stdlib Require Import Permutation.
Import ListNotations.
#[local] Set Warnings "-register-all".
Open Scope string_scope.

(** ** Python values produced by [json.load] *)

(** [json.load] yields [None], [bool], [int], [float], [str], [list] and
    [dict].  A [dict] keeps its items in insertion order, which is the order
    [.items()] iterates in, so it is an association list (the keys of a dict
    that [json.load] built are pairwise distinct; nothing below relies on
    it).  A float is carried by its [repr], which determines it. *)
Inductive json : Type :=
| JNull
| JBool (b : bool)
| JInt (z : Z)
| JFloat (repr : string)
| JStr (s : string)
| JArr (xs : list json)
| JObj (items : list (string * json)).

Definition pydict : Type := list (string * json).

(** [isinstance(v, dict)] *)
Definition isinstance_dict (v : json) : bool :=
  match v with
  | JObj _ => true
  | _ => false
  end.

(** [d.get(key, default)] on a dict: the value of the first item under
    [key], else [default]. *)
Fixpoint dict_get (d : pydict) (key : string) (default : json) : json :=
  match d with
  | [] => default
  | (k, v) :: rest => if String.eqb k key then v else dict_get rest key default
  end.

(** [v == s] for a [str] object [s]: among the values [json.load] produces
    only a [str] with the same characters compares equal. *)
Definition py_eq_str (v : json) (s : string) : bool :=
  match v with
  | JStr t => String.eqb t s
  | _ => false
  end.

(** Truthiness of a [str]: every string but the empty one. *)
Definition str_truthy (s : string) : bool :=
  match s with
  | EmptyString => false
  | String _ _ => true
  end.

(** ** Exceptions *)

Inductive exn_class : Type :=
| FileNotFoundError
| PermissionError
| OSError
| JSONDecodeError
| UnicodeDecodeError
| UnicodeEncodeError
| AttributeError
| ValueError.

(** Every class above derives from [Exception]; [exn_msg] is [str(e)]. *)
Record exn : Type := mk_exn { exn_cls : exn_class; exn_msg : string }.

Definition is_FileNotFoundError (e : exn) : bool :=
  match exn_cls e with
  | FileNotFoundError => true
  | _ => false
  end.

Inductive outcome (A : Type) : Type :=
| Ret (a : A)
| Exc (e : exn).
Arguments Ret {A} a.
Arguments Exc {A} e.

(** [type(v).__name__] *)
Definition py_type_name (v : json) : string :=
  match v with
  | JNull => "NoneType"
  | JBool _ => "bool"
  | JInt _ => "int"
  | JFloat _ => "float"
  | JStr _ => "str"
  | JArr _ => "list"
  | JObj _ => "dict"
  end.

(** The [AttributeError] of [v.get] on a value without [get]. *)
Definition no_get (v : json) : exn :=
  mk_exn AttributeError
         ("'" ++ py_type_name v ++ "' object has no attribute 'get'").

(** [v.get(key, default)] on an arbitrary value: only a [dict] has [get]. *)
Definition py_get (v : json) (key : string) (default : json) : outcome json :=
  match v with
  | JObj d => Ret (dict_get d key default)
  | _ => Exc (no_get v)
  end.

(** ** The world and the effects *)

Inductive stream : Type := Stdout | Stderr.

(** [EPrint to line] is a line written by [print]; [ESpawn argv] is a call of
    [subprocess.Popen(argv)], whether it started the process or raised. *)
Inductive event : Type :=
| EPrint (to : stream) (line : string)
| ESpawn (argv : list string).

(** [local_state n] is what the [n]-th [open] + [json.load] of the Local
    State file gives (the file may change between two reads); [popen argv]
    is what [subprocess.Popen(argv)] gives; [format_other] is [str()] on
    floats, lists and dicts; [stdout_write line] is what writing [line] to
    [sys.stdout] gives: that stream encodes strictly and raises, for one,
    [UnicodeEncodeError] on text it cannot encode. *)
Record World : Type := mk_World {
  local_state : nat -> outcome json;
  popen : list string -> outcome unit;
  format_other : json -> string;
  stdout_write : string -> outcome unit
}.

Record State : Type := mk_State {
  reads : nat;
  log : list event
}.

Definition initial : State := mk_State 0 [].

Definition M (A : Type) : Type := State -> outcome A * State.

Definition ret {A : Type} (a : A) : M A := fun s => (Ret a, s).

Definition bind {A B : Type} (m : M A) (k : A -> M B) : M B :=
  fun s =>
    match m s with
    | (Ret a, s') => k a s'
    | (Exc e, s') => (Exc e, s')
    end.

(** [try: m  except Exception as e: h e] *)
Definition try_except {A : Type} (m : M A) (h : exn -> M A) : M A :=
  fun s =>
    match m s with
    | (Ret a, s') => (Ret a, s')
    | (Exc e, s') => h e s'
    end.

Definition lift {A : Type} (o : outcome A) : M A := fun s => (o, s).

Declare Scope py_scope.
Delimit Scope py_scope with py.
Notation "x <- m ;; k" := (bind m (fun x => k))
  (at level 61, m at next level, right associativity) : py_scope.
Notation "m ;; k" := (bind m (fun _ => k))
  (at level 61, right associativity) : py_scope.
Open Scope py_scope.

(** [with open(local_state_path) as f: json.load(f)] *)
Definition load_local_state (w : World) : M json :=
  fun s => (local_state w (reads s), mk_State (S (reads s)) (log s)).

(** [print(line, file=to)].  A line the stream refuses is not written and
    the exception of the write is raised; [sys.stderr] refuses nothing. *)
Definition print (w : World) (to : stream) (line : string) : M unit :=
  fun s =>
    match to with
    | Stderr => (Ret tt, mk_State (reads s) (log s ++ [EPrint to line]))
    | Stdout =>
        match stdout_write w line with
        | Ret _ => (Ret tt, mk_State (reads s) (log s ++ [EPrint to line]))
        | Exc e => (Exc e, s)
        end
    end.

(** [subprocess.Popen(argv)] *)
Definition Popen (w : World) (argv : list string) : M unit :=
  fun s => (popen w argv, mk_State (reads s) (log s ++ [ESpawn argv])).

(** ** The resolver *)

(** Lines 33-35: the loop over [info_cache.items()] on the visible name.
    [isinstance(info, dict) and ...] short-circuits, so [info.get] is only
    reached on a dict. *)
Fixpoint primary_pass (items : pydict) (display_name : string) : option string :=
  match items with
  | [] => None
  | (dir_name, info) :: rest =>
      match info with
      | JObj fields =>
          if py_eq_str (dict_get fields "name" JNull) display_name
          then Some dir_name
          else primary_pass rest display_name
      | _ => primary_pass rest display_name
      end
  end.

(** Lines 38-42: the loop on [gaia_name] or [user_name]. *)
Fixpoint secondary_pass (items : pydict) (display_name : string) : option string :=
  match items with
  | [] => None
  | (dir_name, info) :: rest =>
      match info with
      | JObj fields =>
          if py_eq_str (dict_get fields "gaia_name" JNull) display_name
             || py_eq_str (dict_get fields "user_name" JNull) display_name
          then Some dir_name
          else secondary_pass rest display_name
      | _ => secondary_pass rest display_name
      end
  end.

(** Lines 24-28: [data.get("profile", {}).get("info_cache")] when [data] is
    a dict, else [None].  The inner [get] is called on whatever is stored
    under ["profile"]. *)
Definition read_info_cache (data : json) : outcome json :=
  if isinstance_dict data then
    match py_get data "profile" (JObj []) with
    | Ret profile => py_get profile "info_cache" JNull
    | Exc e => Exc e
    end
  else Ret JNull.

Definition find_profile_dir_by_display_name (w : World) (display_name : string)
  : M (option string) :=
  loaded <- try_except (data <- load_local_state w ;; ret (Some data))
                       (fun _ => ret None) ;;
  match loaded with
  | None => ret None
  | Some data =>
      info_cache <- lift (read_info_cache data) ;;
      match info_cache with
      | JObj items =>
          match primary_pass items display_name with
          | Some dir_name => ret (Some dir_name)
          | None => ret (secondary_pass items display_name)
          end
      | _ => ret None
      end
  end.

(** ** The launcher *)

Definition chrome_binary : string :=
  "/Applications/Google Chrome.app/Contents/MacOS/Google Chrome".

Definition profile_flag (profile_dir : string) : string :=
  "--profile-directory=" ++ profile_dir.

Definition direct_argv (profile_dir : string) : list string :=
  [chrome_binary; profile_flag profile_dir].

Definition open_argv (profile_dir : string) : list string :=
  ["open"; "-na"; "Google Chrome"; "--args"; profile_flag profile_dir].

Definition launch_chrome_with_profile (w : World) (profile_dir : string) : M Z :=
  try_except
    (Popen w (direct_argv profile_dir) ;; ret 0%Z)
    (fun e =>
       if is_FileNotFoundError e then
         try_except
           (Popen w (open_argv profile_dir) ;; ret 0%Z)
           (fun e' =>
              print w Stderr ("Failed to launch Chrome via 'open': " ++ exn_msg e') ;;
              ret 1%Z)
       else
         print w Stderr ("Failed to launch Chrome: " ++ exn_msg e) ;;
         ret 1%Z).

(** ** The entry point *)

Definition default_display_name : string := "telecomdesign.fr".

(** [sys.argv[1] if len(sys.argv) > 1 else "telecomdesign.fr"] *)
Definition desired_display_name (argv : list string) : string :=
  if (1 <? length argv)%nat then nth 1 argv "" else default_display_name.

(** [str(v)] as an f-string field renders it. *)
Definition py_str (w : World) (v : json) : string :=
  match v with
  | JNull => "None"
  | JBool true => "True"
  | JBool false => "False"
  | JInt z => NilZero.string_of_int (Z.to_int z)
  | JStr s => s
  | _ => format_other w v
  end.

Definition not_found_message (display_name : string) : string :=
  "Chrome profile not found by display name: '" ++ display_name ++ "'.".

Definition profile_line (w : World) (dir_name : string) (info : json) : string :=
  let name :=
    match info with
    | JObj fields => dict_get fields "name" JNull
    | _ => JNull
    end in
  "- " ++ dir_name ++ " (name: " ++ py_str w name ++ ")".

(** Lines 94-96 *)
Fixpoint print_profiles (w : World) (items : pydict) : M unit :=
  match items with
  | [] => ret tt
  | (dir_name, info) :: rest =>
      print w Stdout (profile_line w dir_name info) ;;
      print_profiles w rest
  end.

(** Lines 78-101: the path taken when nothing was resolved. *)
Definition report_not_found (w : World) (display_name : string) : M Z :=
  print w Stderr (not_found_message display_name) ;;
  try_except
    (data <- load_local_state w ;;
     profile <- lift (py_get data "profile" (JObj [])) ;;
     info_cache <- lift (py_get profile "info_cache" (JObj [])) ;;
     match info_cache with
     | JObj ((_ :: _) as items) =>
         print w Stdout "Available profiles:" ;;
         print_profiles w items
     | _ => ret tt
     end)
    (fun _ => ret tt) ;;
  ret 2%Z.

(** [main] returns the status it hands to [sys.exit]; an exception that
    leaves [main] is an uncaught one. *)
Definition main (w : World) (argv : list string) : M Z :=
  let display_name := desired_display_name argv in
  resolved_dir <- find_profile_dir_by_display_name w display_name ;;
  match resolved_dir with
  | Some dir_name =>
      if str_truthy dir_name
      then launch_chrome_with_profile w dir_name
      else report_not_found w display_name
  | None => report_not_found w display_name
  end.

(** ** Vocabulary of the specification *)

(** The record [info] is an object whose member [key] is the string [n]. *)
Definition field_is (info : json) (key n : string) : Prop :=
  exists fields, info = JObj fields /\ dict_get fields key JNull = JStr n.

(** The record [info] offers nothing to compare under [key]: it is not an
    object, or the member is absent, or it is not a string. *)
Definition field_unusable (info : json) (key : string) : Prop :=
  isinstance_dict info = false \/
  exists fields, info = JObj fields /\
                 forall t, dict_get fields key JNull <> JStr t.

(** The document is an object whose [profile] member is an object whose
    [info_cache] member is the object with the items [items]. *)
Definition has_info_cache (data : json) (items : pydict) : Prop :=
  exists top prof,
    data = JObj top /\
    dict_get top "profile" JNull = JObj prof /\
    dict_get prof "info_cache" JNull = JObj items.

Definition name_matches (display_name : string) (info : json) : bool :=
  match info with
  | JObj fields => py_eq_str (dict_get fields "name" JNull) display_name
  | _ => false
  end.

Definition identity_matches (display_name : string) (info : json) : bool :=
  match info with
  | JObj fields =>
      py_eq_str (dict_get fields "gaia_name" JNull) display_name
      || py_eq_str (dict_get fields "user_name" JNull) display_name
  | _ => false
  end.

(** The first directory whose record satisfies [p]. *)
Fixpoint first_dir (p : json -> bool) (items : pydict) : option string :=
  match items with
  | [] => None
  | (dir_name, info) :: rest =>
      if p info then Some dir_name else first_dir p rest
  end.

(** What the two loops of the resolver return together. *)
Definition resolve (items : pydict) (n : string) : option string :=
  match primary_pass items n with
  | Some dir_name => Some dir_name
  | None => secondary_pass items n
  end.

(** The state once the Local State file has been read one more time. *)
Definition after_read (s : State) : State := mk_State (S (reads s)) (log s).

(** One line per item of the cache, in iteration order. *)
Definition profile_lines (w : World) (items : pydict) : list string :=
  map (fun e => profile_line w (fst e) (snd e)) items.

(** The header a non-empty cache is announced with. *)
Definition header_lines (items : pydict) : list string :=
  match items with
  | [] => []
  | _ :: _ => ["Available profiles:"]
  end.

(** The lines of [lines] up to the first one the stream refuses. *)
Fixpoint accepted_prefix (write : string -> outcome unit) (lines : list string)
  : list string :=
  match lines with
  | [] => []
  | line :: rest =>
      match write line with
      | Ret _ => line :: accepted_prefix write rest
      | Exc _ => []
      end
  end.

(** The three bytes that stand for the lone surrogate U+D800 in a [str]. *)
Definition lone_surrogate : string :=
  String (ascii_of_nat 237) (String (ascii_of_nat 160)
                                    (String (ascii_of_nat 128) EmptyString)).

(** A standard output that encodes ASCII and nothing else. *)
Definition ascii_stdout (line : string) : outcome unit :=
  if forallb (fun c => (nat_of_ascii c <? 128)%nat) (list_ascii_of_string line)
  then Ret tt
  else Exc (mk_exn UnicodeEncodeError "'ascii' codec can't encode character").

Definition is_spawn (e : event) : bool :=
  match e with
  | ESpawn _ => true
  | EPrint _ _ => false
  end.

(** The spawns among a run's events, in order. *)
Definition spawns (evs : list event) : list event := filter is_spawn evs.

(** The document of the specification's scenarios. *)
Definition scenario_config : json :=
  JObj [("profile",
         JObj [("info_cache",
                JObj [("Default", JObj [("name", JStr "alice@example.com")]);
                      ("Profile 2", JObj [("name", JStr "telecomdesign.fr")])])])].

(** A world whose Local State file always holds [data], where the direct
    spawn gives [direct] and any other spawn [other], and whose standard
    output accepts every line. *)
Definition world_of (data : outcome json) (direct other : outcome unit) : World :=
  mk_World (fun _ => data)
           (fun argv =>
              match argv with
              | [_; _] => direct
              | _ => other
              end)
           (fun _ => "?")
           (fun _ => Ret tt).

(** A document whose only profile lives under the empty directory name. *)
Definition empty_key_config : json :=
  JObj [("profile",
         JObj [("info_cache", JObj [("", JObj [("name", JStr "work")])])])].

(** A document whose [profile] member is a number. *)
Definition profile_number_config : json := JObj [("profile", JInt 5)].

(** The events a run added, given the states before and after it. *)
Definition emitted (before after : State) : list event :=
  skipn (length (log before)) (log after).

(** ** Dictionaries and comparisons *)

Lemma py_eq_str_true (v : json) (n : string) :
  py_eq_str v n = true <-> v = JStr n.
Proof.
  destruct v; simpl; try (split; [discriminate | intros E; discriminate E]).
  rewrite String.eqb_eq. split; [intros -> | intros [= ->]]; reflexivity.
Qed.

Lemma py_eq_str_not_str (v : json) (n : string) :
  (forall t, v <> JStr t) -> py_eq_str v n = false.
Proof.
  intros H. destruct (py_eq_str v n) eqn:E; [|reflexivity].
  apply py_eq_str_true in E. now elim (H n).
Qed.

(** A lookup that found something other than its default found it under
    every default. *)
Lemma dict_get_found (d : pydict) (key : string) (dflt dflt' v : json) :
  dict_get d key dflt = v -> v <> dflt -> dict_get d key dflt' = v.
Proof.
  induction d as [|[k x] d IH]; simpl; intros E N.
  - now elim N.
  - destruct (String.eqb k key); auto.
Qed.

Lemma name_matches_iff (n : string) (info : json) :
  name_matches n info = true <-> field_is info "name" n.
Proof.
  unfold field_is. destruct info; simpl;
    try (split; [discriminate | intros (f & E & _); discriminate E]).
  rewrite py_eq_str_true. split.
  - intros E. now exists items.
  - intros (f & [= <-] & E). exact E.
Qed.

Lemma identity_matches_iff (n : string) (info : json) :
  identity_matches n info = true <->
  field_is info "gaia_name" n \/ field_is info "user_name" n.
Proof.
  unfold field_is. destruct info; simpl;
    try (split; [discriminate
                | intros [(f & E & _)|(f & E & _)]; discriminate E]).
  rewrite orb_true_iff, !py_eq_str_true. split.
  - intros [E|E]; [left|right]; now exists items.
  - intros [(f & [= <-] & E)|(f & [= <-] & E)]; auto.
Qed.

Lemma name_matches_false_iff (n : string) (info : json) :
  name_matches n info = false <-> ~ field_is info "name" n.
Proof.
  rewrite <- name_matches_iff. destruct (name_matches n info); split;
    congruence.
Qed.

Lemma identity_matches_false_iff (n : string) (info : json) :
  identity_matches n info = false <->
  ~ (field_is info "gaia_name" n \/ field_is info "user_name" n).
Proof.
  rewrite <- identity_matches_iff. destruct (identity_matches n info); split;
    congruence.
Qed.

Lemma unusable_name (n : string) (info : json) :
  field_unusable info "name" -> name_matches n info = false.
Proof.
  intros [H|(f & -> & H)].
  - destruct info; simpl in *; congruence.
  - simpl. now apply py_eq_str_not_str.
Qed.

Lemma unusable_identity (n : string) (info : json) :
  field_unusable info "gaia_name" -> field_unusable info "user_name" ->
  identity_matches n info = false.
Proof.
  intros [H|(f & -> & H)] [H'|(f' & E & H')];
    try (destruct info; simpl in *; congruence);
    try (simpl in *; congruence).
  injection E as <-. simpl.
  now rewrite !py_eq_str_not_str.
Qed.

(** ** The two loops as searches *)

Lemma primary_pass_first_dir (items : pydict) (n : string) :
  primary_pass items n = first_dir (name_matches n) items.
Proof.
  induction items as [|[d info] rest IH]; simpl; [reflexivity|].
  destruct info; simpl; rewrite IH; reflexivity.
Qed.

Lemma secondary_pass_first_dir (items : pydict) (n : string) :
  secondary_pass items n = first_dir (identity_matches n) items.
Proof.
  induction items as [|[d info] rest IH]; simpl; [reflexivity|].
  destruct info; simpl; rewrite IH; reflexivity.
Qed.

Section FirstDir.
Variable p : json -> bool.

Lemma first_dir_hit (pre post : pydict) (d : string) (info : json) :
  p info = true ->
  (forall d' i', In (d', i') pre -> p i' = false) ->
  first_dir p (pre ++ (d, info) :: post)%list = Some d.
Proof.
  intros Hp. induction pre as [|[d0 i0] pre IH]; simpl; intros Hpre.
  - now rewrite Hp.
  - rewrite (Hpre d0 i0) by now left.
    apply IH. intros d' i' Hin. apply (Hpre d' i'). now right.
Qed.

Lemma first_dir_skip (pre post : pydict) (d : string) (info : json) :
  p info = false ->
  first_dir p (pre ++ (d, info) :: post)%list = first_dir p (pre ++ post)%list.
Proof.
  intros Hp. induction pre as [|[d0 i0] pre IH]; simpl.
  - now rewrite Hp.
  - now rewrite IH.
Qed.

Lemma first_dir_none (items : pydict) :
  first_dir p items = None <->
  forall d i, In (d, i) items -> p i = false.
Proof.
  induction items as [|[d0 i0] rest IH]; simpl.
  - split; [intros _ d i []|reflexivity].
  - destruct IH as [IH1 IH2]. destruct (p i0) eqn:E; split.
    + discriminate.
    + intros H. specialize (H d0 i0 (or_introl eq_refl)). congruence.
    + intros H d i [[= <- <-]|Hin]; [exact E|].
      exact (IH1 H d i Hin).
    + intros H. apply IH2. intros d i Hin. apply (H d i). now right.
Qed.

Lemma first_dir_some (items : pydict) (d : string) :
  first_dir p items = Some d ->
  exists pre info post,
    items = (pre ++ (d, info) :: post)%list /\ p info = true /\
    forall d' i', In (d', i') pre -> p i' = false.
Proof.
  induction items as [|[d0 i0] rest IH]; simpl; [discriminate|].
  destruct (p i0) eqn:E.
  - intros [= <-]. exists [], i0, rest. repeat split; auto.
    intros ? ? [].
  - intros H. destruct (IH H) as (pre & info & post & -> & Hp & Hpre).
    exists ((d0, i0) :: pre), info, post. repeat split; auto.
    intros d' i' [[= <- <-]|Hin]; eauto.
Qed.

Lemma first_dir_key (items : pydict) (d : string) :
  first_dir p items = Some d -> In d (map fst items).
Proof.
  intros H. destruct (first_dir_some _ _ H) as (pre & info & post & -> & _).
  rewrite map_app, in_app_iff. right. now left.
Qed.
End FirstDir.

(** ** Reaching the info cache *)

Lemma read_info_cache_iff (data : json) (items : pydict) :
  read_info_cache data = Ret (JObj items) <-> has_info_cache data items.
Proof.
  unfold has_info_cache, read_info_cache. split.
  - destruct data as [| | | | | |top]; simpl; try discriminate.
    destruct (dict_get top "profile" (JObj [])) as [| | | | | |prof] eqn:P;
      simpl; try discriminate.
    intros [= C]. exists top, prof. repeat split; auto.
    apply dict_get_found with (dflt := JObj []); auto.
    intros [= ->]. discriminate C.
  - intros (top & prof & -> & P & C). simpl.
    rewrite (dict_get_found _ _ JNull (JObj []) _ P) by discriminate.
    simpl. now rewrite C.
Qed.

Lemma read_info_cache_not_dict (data : json) :
  isinstance_dict data = false -> read_info_cache data = Ret JNull.
Proof. unfold read_info_cache. now intros ->. Qed.

(** ** Runs of the resolver *)

Lemma resolver_unreadable (w : World) (n : string) (s : State) (e : exn) :
  local_state w (reads s) = Exc e ->
  find_profile_dir_by_display_name w n s = (Ret None, after_read s).
Proof.
  intros L. unfold find_profile_dir_by_display_name, bind, try_except,
    load_local_state, ret. now rewrite L.
Qed.

Lemma resolver_loaded (w : World) (n : string) (s : State) (data : json) :
  local_state w (reads s) = Ret data ->
  find_profile_dir_by_display_name w n s =
  (match read_info_cache data with
   | Ret (JObj items) => Ret (resolve items n)
   | Ret _ => Ret None
   | Exc e => Exc e
   end, after_read s).
Proof.
  intros L. unfold find_profile_dir_by_display_name, bind, try_except,
    load_local_state, ret, lift, resolve. rewrite L.
  destruct (read_info_cache data) as [[| | | | | |items]|e]; try reflexivity.
  now destruct (primary_pass items n).
Qed.

Lemma resolver_on_cache (w : World) (n : string) (s : State)
      (data : json) (items : pydict) :
  local_state w (reads s) = Ret data ->
  has_info_cache data items ->
  find_profile_dir_by_display_name w n s = (Ret (resolve items n), after_read s).
Proof.
  intros L C. rewrite (resolver_loaded _ _ _ _ L).
  apply read_info_cache_iff in C. now rewrite C.
Qed.

(** ** Runs of the launcher *)

Lemma launch_direct_ok (w : World) (dir : string) (s : State) :
  popen w (direct_argv dir) = Ret tt ->
  launch_chrome_with_profile w dir s =
  (Ret 0%Z, mk_State (reads s) (log s ++ [ESpawn (direct_argv dir)])%list).
Proof.
  intros D. unfold launch_chrome_with_profile, try_except, bind, Popen, ret.
  now rewrite D.
Qed.

Lemma launch_fallback_ok (w : World) (dir : string) (s : State) (e : exn) :
  popen w (direct_argv dir) = Exc e -> is_FileNotFoundError e = true ->
  popen w (open_argv dir) = Ret tt ->
  launch_chrome_with_profile w dir s =
  (Ret 0%Z,
   mk_State (reads s)
            (log s ++ [ESpawn (direct_argv dir); ESpawn (open_argv dir)])%list).
Proof.
  intros D F O. unfold launch_chrome_with_profile, try_except, bind, Popen, ret.
  rewrite D, F. simpl. rewrite O. now rewrite <- app_assoc.
Qed.

Lemma launch_fallback_fails (w : World) (dir : string) (s : State) (e e' : exn) :
  popen w (direct_argv dir) = Exc e -> is_FileNotFoundError e = true ->
  popen w (open_argv dir) = Exc e' ->
  launch_chrome_with_profile w dir s =
  (Ret 1%Z,
   mk_State (reads s)
            (log s ++ [ESpawn (direct_argv dir); ESpawn (open_argv dir);
                       EPrint Stderr
                         ("Failed to launch Chrome via 'open': " ++ exn_msg e')])%list).
Proof.
  intros D F O.
  unfold launch_chrome_with_profile, try_except, bind, Popen, print, ret.
  rewrite D, F. simpl. rewrite O. simpl. now rewrite <- !app_assoc.
Qed.

Lemma launch_direct_fails (w : World) (dir : string) (s : State) (e : exn) :
  popen w (direct_argv dir) = Exc e -> is_FileNotFoundError e = false ->
  launch_chrome_with_profile w dir s =
  (Ret 1%Z,
   mk_State (reads s)
            (log s ++ [ESpawn (direct_argv dir);
                       EPrint Stderr ("Failed to launch Chrome: " ++ exn_msg e)])%list).
Proof.
  intros D F.
  unfold launch_chrome_with_profile, try_except, bind, Popen, print, ret.
  rewrite D, F. simpl. now rewrite <- !app_assoc.
Qed.

(** The launcher always returns, with status 0 or 1, after spawning the
    direct command first. *)
Lemma launch_returns (w : World) (dir : string) (s : State) :
  exists status evs,
    launch_chrome_with_profile w dir s =
    (Ret status,
     mk_State (reads s) (log s ++ ESpawn (direct_argv dir) :: evs)%list) /\
    (status = 0 \/ status = 1)%Z.
Proof.
  destruct (popen w (direct_argv dir)) as [[]|e] eqn:D.
  - rewrite (launch_direct_ok _ _ _ D). eauto.
  - destruct (is_FileNotFoundError e) eqn:F.
    + destruct (popen w (open_argv dir)) as [[]|e'] eqn:O.
      * rewrite (launch_fallback_ok _ _ _ _ D F O). eauto.
      * rewrite (launch_fallback_fails _ _ _ _ _ D F O). eauto.
    + rewrite (launch_direct_fails _ _ _ _ D F). eauto.
Qed.

(** ** Runs of the not-found path *)

Lemma print_profiles_run (w : World) (items : pydict) (s : State) :
  exists r,
    print_profiles w items s =
    (r,
     mk_State (reads s)
              (log s ++ map (EPrint Stdout)
                            (accepted_prefix (stdout_write w)
                                             (profile_lines w items)))%list).
Proof.
  revert s. induction items as [|[d info] rest IH]; intros [r l]; simpl.
  - exists (Ret tt). unfold ret. simpl. now rewrite app_nil_r.
  - unfold bind, print. simpl.
    destruct (stdout_write w (profile_line w d info)) as [u|e].
    + destruct (IH (mk_State r (l ++ [EPrint Stdout (profile_line w d info)])%list))
        as (r' & ->).
      exists r'. simpl. now rewrite <- app_assoc.
    + exists (Exc e). simpl. now rewrite app_nil_r.
Qed.

Lemma spawns_app (l l' : list event) :
  spawns (l ++ l')%list = (spawns l ++ spawns l')%list.
Proof. apply filter_app. Qed.

Lemma spawns_prints (to : stream) (lines : list string) :
  spawns (map (EPrint to) lines) = [].
Proof. induction lines; simpl; auto. Qed.

(** The not-found path always hands 2 to [sys.exit], reads the file once
    more and spawns nothing. *)
Lemma report_not_found_run (w : World) (n : string) (s : State) :
  exists evs,
    report_not_found w n s =
    (Ret 2%Z,
     mk_State (S (reads s))
              (log s ++ EPrint Stderr (not_found_message n) :: evs)%list) /\
    spawns evs = [].
Proof.
  unfold report_not_found, bind, try_except, print, load_local_state, lift, ret.
  simpl.
  destruct (local_state w (reads s)) as [data|e]; [|exists []; simpl; auto].
  destruct (py_get data "profile" (JObj [])) as [profile|e];
    [|exists []; simpl; auto].
  destruct (py_get profile "info_cache" (JObj [])) as [cache|e];
    [|exists []; simpl; auto].
  destruct cache as [| | | | | |[|[d info] rest]];
    try (exists []; simpl; auto; fail).
  destruct (stdout_write w "Available profiles:") as [u|e];
    [|exists []; simpl; auto].
  match goal with
  | |- context [print_profiles w ?items ?st] =>
      destruct (print_profiles_run w items st) as (r & ->)
  end.
  simpl. eexists. split.
  - destruct r; simpl; rewrite <- !app_assoc; simpl; reflexivity.
  - simpl. apply spawns_prints.
Qed.

(** On a document with an info cache the not-found path writes the header
    and the entries' lines, up to the first line standard output refuses. *)
Lemma report_not_found_on_cache (w : World) (n : string) (s : State)
      (data : json) (items : pydict) :
  local_state w (reads s) = Ret data ->
  has_info_cache data items ->
  report_not_found w n s =
  (Ret 2%Z,
   mk_State (S (reads s))
            (log s ++ EPrint Stderr (not_found_message n)
                   :: map (EPrint Stdout)
                          (accepted_prefix
                             (stdout_write w)
                             (header_lines items ++ profile_lines w items)))%list).
Proof.
  intros L (top & prof & -> & P & C).
  unfold report_not_found, bind, try_except, print, load_local_state, lift, ret.
  simpl. rewrite L. simpl.
  rewrite (dict_get_found _ _ JNull (JObj []) _ P) by discriminate. simpl.
  rewrite (dict_get_found _ _ JNull (JObj []) _ C) by discriminate.
  destruct items as [|[d info] rest]; [reflexivity|].
  cbn [header_lines app accepted_prefix].
  destruct (stdout_write w "Available profiles:") as [u|e]; [|reflexivity].
  match goal with
  | |- context [print_profiles w ?items ?st] =>
      destruct (print_profiles_run w items st) as (r & ->)
  end.
  destruct r; simpl; now rewrite <- !app_assoc.
Qed.

Lemma accepted_prefix_all (write : string -> outcome unit) (lines : list string) :
  (forall line, In line lines -> write line = Ret tt) ->
  accepted_prefix write lines = lines.
Proof.
  induction lines as [|line rest IH]; simpl; intros H; [reflexivity|].
  rewrite (H line (or_introl eq_refl)). f_equal. apply IH.
  intros l Hl. apply H. now right.
Qed.

(** ** Runs of the entry point *)

Lemma main_resolved (w : World) (argv : list string) (s s' : State)
      (dir : string) :
  find_profile_dir_by_display_name w (desired_display_name argv) s
  = (Ret (Some dir), s') ->
  str_truthy dir = true ->
  main w argv s = launch_chrome_with_profile w dir s'.
Proof.
  intros R T. unfold main, bind. now rewrite R, T.
Qed.

Lemma main_unresolved (w : World) (argv : list string) (s s' : State)
      (r : option string) :
  find_profile_dir_by_display_name w (desired_display_name argv) s
  = (Ret r, s') ->
  (r = None \/ r = Some "") ->
  main w argv s = report_not_found w (desired_display_name argv) s'.
Proof.
  intros R [->| ->]; unfold main, bind; now rewrite R.
Qed.

Lemma str_truthy_iff (s : string) : str_truthy s = true <-> s <> "".
Proof. destruct s; simpl; split; congruence. Qed.

Lemma resolver_first_name_match (w : World) (s : State) (n : string) (data : json)
      (pre post : pydict) (dir : string) (info : json) :
  local_state w (reads s) = Ret data ->
  has_info_cache data (pre ++ (dir, info) :: post)%list ->
  field_is info "name" n ->
  (forall d i, In (d, i) pre -> ~ field_is i "name" n) ->
  find_profile_dir_by_display_name w n s = (Ret (Some dir), after_read s).
Proof.
  intros L C Hinfo Hpre.
  rewrite (resolver_on_cache _ _ _ _ _ L C). unfold resolve.
  rewrite primary_pass_first_dir, first_dir_hit; auto.
  - now apply name_matches_iff.
  - intros d i Hin. apply name_matches_false_iff. eauto.
Qed.

(** ** The resolver's two passes *)

(** Discharges [~ field_is info key n] on a concrete record. *)
Ltac no_field :=
  let f := fresh "f" in
  let E := fresh "E" in
  let V := fresh "V" in
  intros (f & E & V);
  first [discriminate E | injection E as <-; vm_compute in V; discriminate V].

(** Discharges [has_info_cache data items] on a concrete document. *)
Ltac find_cache :=
  unfold has_info_cache; do 2 eexists; repeat split; reflexivity.

(** C2. The primary pass scans the info-cache entries in iteration order and
    the resolver returns the directory name of the first record whose [name]
    member is exactly the requested string; records before it that do not
    carry that name are passed over, and records after it, whether or not
    they share the name, do not change the answer. *)
Theorem C2_primary_first_match
        (w : World) (s : State) (n : string) (data : json)
        (pre post : pydict) (dir : string) (info : json) :
  local_state w (reads s) = Ret data ->
  has_info_cache data (pre ++ (dir, info) :: post)%list ->
  field_is info "name" n ->
  (forall d i, In (d, i) pre -> ~ field_is i "name" n) ->
  primary_pass (pre ++ (dir, info) :: post)%list n = Some dir /\
  fst (find_profile_dir_by_display_name w n s) = Ret (Some dir).
Proof.
  intros L C Hinfo Hpre.
  assert (P : primary_pass (pre ++ (dir, info) :: post)%list n = Some dir).
  { rewrite primary_pass_first_dir. apply first_dir_hit.
    - now apply name_matches_iff.
    - intros d i Hin. apply name_matches_false_iff. eauto. }
  split; [exact P|].
  rewrite (resolver_on_cache _ _ _ _ _ L C). unfold resolve. now rewrite P.
Qed.

Lemma C2_primary_first_match_witness :
  let items :=
    [("Default", JObj [("name", JStr "Work")]);
     ("Profile 1", JObj [("name", JStr "work")]);
     ("Profile 2", JObj [("name", JStr "work")])] in
  let data := JObj [("profile", JObj [("info_cache", JObj items)])] in
  primary_pass items "work" = Some "Profile 1" /\
  fst (find_profile_dir_by_display_name
         (world_of (Ret data) (Ret tt) (Ret tt)) "work" initial)
  = Ret (Some "Profile 1").
Proof.
  intros items data.
  apply (C2_primary_first_match
           (world_of (Ret data) (Ret tt) (Ret tt)) initial "work" data
           [("Default", JObj [("name", JStr "Work")])]
           [("Profile 2", JObj [("name", JStr "work")])]
           "Profile 1" (JObj [("name", JStr "work")])).
  - reflexivity.
  - find_cache.
  - eexists. split; reflexivity.
  - intros d i [[= <- <-]|[]]. no_field.
Defined.

(** C3. The secondary pass decides the answer only when no record's [name]
    member matched: whenever some record carries the requested name the
    resolver's answer is the primary pass's; and when none does but some
    record's [gaia_name] or [user_name] member is the requested string, the
    resolver returns the directory name of the first such record. *)
Theorem C3_secondary_first_match
        (w : World) (s : State) (n : string) (data : json) (items : pydict) :
  local_state w (reads s) = Ret data ->
  has_info_cache data items ->
  ((exists d i, In (d, i) items /\ field_is i "name" n) ->
   exists dir, primary_pass items n = Some dir /\
               fst (find_profile_dir_by_display_name w n s) = Ret (Some dir)) /\
  ((forall d i, In (d, i) items -> ~ field_is i "name" n) ->
   forall pre post dir info,
     items = (pre ++ (dir, info) :: post)%list ->
     field_is info "gaia_name" n \/ field_is info "user_name" n ->
     (forall d i, In (d, i) pre ->
                  ~ (field_is i "gaia_name" n \/ field_is i "user_name" n)) ->
     primary_pass items n = None /\
     secondary_pass items n = Some dir /\
     fst (find_profile_dir_by_display_name w n s) = Ret (Some dir)).
Proof.
  intros L C. rewrite (resolver_on_cache _ _ _ _ _ L C). unfold resolve.
  split.
  - intros (d & i & Hin & Hf).
    destruct (primary_pass items n) as [dir|] eqn:P; [eauto|].
    rewrite primary_pass_first_dir in P.
    rewrite first_dir_none in P. specialize (P d i Hin).
    apply name_matches_false_iff in P. now elim P.
  - intros Hnone pre post dir info -> Hinfo Hpre.
    assert (P : primary_pass (pre ++ (dir, info) :: post)%list n = None).
    { rewrite primary_pass_first_dir. apply first_dir_none.
      intros d i Hin. apply name_matches_false_iff. eauto. }
    assert (Q : secondary_pass (pre ++ (dir, info) :: post)%list n = Some dir).
    { rewrite secondary_pass_first_dir. apply first_dir_hit.
      - now apply identity_matches_iff.
      - intros d i Hin. apply identity_matches_false_iff. eauto. }
    rewrite P, Q. auto.
Qed.

Lemma C3_secondary_first_match_witness :
  let items :=
    [("Default", JObj [("name", JStr "Home"); ("gaia_name", JStr "Ann")]);
     ("Profile 1", JObj [("name", JStr "Job"); ("user_name", JStr "bob@example.com")]);
     ("Profile 2", JObj [("gaia_name", JStr "bob@example.com")])] in
  let data := JObj [("profile", JObj [("info_cache", JObj items)])] in
  primary_pass items "bob@example.com" = None /\
  secondary_pass items "bob@example.com" = Some "Profile 1" /\
  fst (find_profile_dir_by_display_name
         (world_of (Ret data) (Ret tt) (Ret tt)) "bob@example.com" initial)
  = Ret (Some "Profile 1").
Proof.
  intros items data.
  refine (proj2 (C3_secondary_first_match
                   (world_of (Ret data) (Ret tt) (Ret tt)) initial
                   "bob@example.com" data items eq_refl _) _
                [("Default", JObj [("name", JStr "Home"); ("gaia_name", JStr "Ann")])]
                [("Profile 2", JObj [("gaia_name", JStr "bob@example.com")])]
                "Profile 1"
                (JObj [("name", JStr "Job"); ("user_name", JStr "bob@example.com")])
                eq_refl _ _).
  - find_cache.
  - intros d i [[= <- <-]|[[= <- <-]|[[= <- <-]|[]]]]; no_field.
  - right. eexists. split; reflexivity.
  - intros d i [[= <- <-]|[]] [G|G]; revert G; no_field.
Defined.

(** ** The launcher *)

Lemma emitted_app (s : State) (r : nat) (evs : list event) :
  emitted s (mk_State r (log s ++ evs)%list) = evs.
Proof.
  unfold emitted. simpl. induction (log s); simpl; auto.
Qed.

(** C4. The launcher returns 0 when the direct spawn succeeds, and when it
    fails with [FileNotFoundError] and the spawn through [open] succeeds.  It
    returns 1, after one line on the error stream, when the direct spawn
    fails otherwise (and then [open] is not spawned) and when the spawn
    through [open] fails too.  The [open] command is spawned exactly when the
    direct spawn failed with [FileNotFoundError]. *)
Theorem C4_launcher_status (w : World) (profile_dir : string) (s : State) :
  let run := launch_chrome_with_profile w profile_dir s in
  let direct := direct_argv profile_dir in
  let fallback := open_argv profile_dir in
  (popen w direct = Ret tt ->
   fst run = Ret 0%Z /\ emitted s (snd run) = [ESpawn direct]) /\
  (forall e,
      popen w direct = Exc e -> is_FileNotFoundError e = true ->
      popen w fallback = Ret tt ->
      fst run = Ret 0%Z /\
      emitted s (snd run) = [ESpawn direct; ESpawn fallback]) /\
  (forall e,
      popen w direct = Exc e -> is_FileNotFoundError e = false ->
      fst run = Ret 1%Z /\
      emitted s (snd run) =
      [ESpawn direct;
       EPrint Stderr ("Failed to launch Chrome: " ++ exn_msg e)]) /\
  (forall e e',
      popen w direct = Exc e -> is_FileNotFoundError e = true ->
      popen w fallback = Exc e' ->
      fst run = Ret 1%Z /\
      emitted s (snd run) =
      [ESpawn direct; ESpawn fallback;
       EPrint Stderr ("Failed to launch Chrome via 'open': " ++ exn_msg e')]) /\
  (In (ESpawn fallback) (emitted s (snd run)) <->
   exists e, popen w direct = Exc e /\ is_FileNotFoundError e = true).
Proof.
  intros run direct fallback. subst run direct fallback.
  repeat apply conj.
  - intros D. rewrite (launch_direct_ok _ _ _ D).
    split; [reflexivity | apply emitted_app].
  - intros e D F O. rewrite (launch_fallback_ok _ _ _ _ D F O).
    split; [reflexivity | apply emitted_app].
  - intros e D F. rewrite (launch_direct_fails _ _ _ _ D F).
    split; [reflexivity | apply emitted_app].
  - intros e e' D F O. rewrite (launch_fallback_fails _ _ _ _ _ D F O).
    split; [reflexivity | apply emitted_app].
  - destruct (popen w (direct_argv profile_dir)) as [[]|e] eqn:D.
    + rewrite (launch_direct_ok _ _ _ D). simpl. rewrite emitted_app.
      intros [E|[]]. discriminate E.
    + destruct (is_FileNotFoundError e) eqn:F; [eauto|].
      rewrite (launch_direct_fails _ _ _ _ D F). simpl. rewrite emitted_app.
      intros [E|[E|[]]]; discriminate E.
  - intros (e & D & F).
    destruct (popen w (open_argv profile_dir)) as [[]|e'] eqn:O.
    + rewrite (launch_fallback_ok _ _ _ _ D F O). simpl. rewrite emitted_app.
      right. now left.
    + rewrite (launch_fallback_fails _ _ _ _ _ D F O). simpl.
      rewrite emitted_app. right. now left.
Qed.

(** ** The entry point on a resolved name *)

(** C1, as the script has it.  When the requested display name is exactly
    the [name] member of some record, the resolver returns the directory name
    of the first such record in iteration order.  When that directory name is
    not the empty string, the rest of the program is the launcher's run on
    it: the direct command is spawned and the status handed to [sys.exit] is
    the launcher's, which is 0 or 1 and so never 2. *)
Theorem C1_name_match_launches
        (w : World) (argv : list string) (data : json)
        (pre post : pydict) (dir : string) (info : json) :
  local_state w 0 = Ret data ->
  has_info_cache data (pre ++ (dir, info) :: post)%list ->
  field_is info "name" (desired_display_name argv) ->
  (forall d i, In (d, i) pre -> ~ field_is i "name" (desired_display_name argv)) ->
  fst (find_profile_dir_by_display_name w (desired_display_name argv) initial)
  = Ret (Some dir) /\
  (dir <> "" ->
   main w argv initial = launch_chrome_with_profile w dir (after_read initial) /\
   In (ESpawn (direct_argv dir)) (log (snd (main w argv initial))) /\
   exists status,
     fst (main w argv initial) = Ret status /\ (status = 0 \/ status = 1)%Z).
Proof.
  intros L C Hinfo Hpre.
  pose proof (resolver_first_name_match
                w initial (desired_display_name argv) data
                pre post dir info L C Hinfo Hpre) as R.
  split; [now rewrite R|].
  intros Hdir. apply str_truthy_iff in Hdir.
  rewrite (main_resolved _ _ _ _ _ R Hdir).
  destruct (launch_returns w dir (after_read initial))
    as (status & evs & -> & Hstatus).
  simpl. repeat split; eauto.
Qed.

Lemma C1_name_match_launches_witness :
  let w := world_of (Ret scenario_config) (Ret tt) (Ret tt) in
  let argv := ["ouvprofilchrome.py"; "alice@example.com"] in
  fst (find_profile_dir_by_display_name w (desired_display_name argv) initial)
  = Ret (Some "Default") /\
  ("Default" <> "" ->
   main w argv initial
   = launch_chrome_with_profile w "Default" (after_read initial) /\
   In (ESpawn (direct_argv "Default")) (log (snd (main w argv initial))) /\
   exists status,
     fst (main w argv initial) = Ret status /\ (status = 0 \/ status = 1)%Z).
Proof.
  intros w argv.
  apply (C1_name_match_launches
           w argv scenario_config []
           [("Profile 2", JObj [("name", JStr "telecomdesign.fr")])]
           "Default" (JObj [("name", JStr "alice@example.com")])).
  - reflexivity.
  - find_cache.
  - eexists. split; reflexivity.
  - intros d i [].
Defined.

(** C1, as stated, fails on a record kept under the empty directory name:
    the requested name is that record's [name] member and the resolver
    returns its directory name, yet nothing is spawned and the status handed
    to [sys.exit] is 2. *)
Lemma C1_empty_directory_name_exits_2 :
  let w := world_of (Ret empty_key_config) (Ret tt) (Ret tt) in
  let argv := ["ouvprofilchrome.py"; "work"] in
  has_info_cache empty_key_config [("", JObj [("name", JStr "work")])] /\
  field_is (JObj [("name", JStr "work")]) "name" (desired_display_name argv) /\
  fst (find_profile_dir_by_display_name w (desired_display_name argv) initial)
  = Ret (Some "") /\
  fst (main w argv initial) = Ret 2%Z /\
  spawns (log (snd (main w argv initial))) = [].
Proof.
  intros w argv. split; [find_cache|].
  split; [eexists; split; reflexivity|].
  repeat split; reflexivity.
Qed.

(** ** The resolver's boundary *)

(** What the resolver does with a file it cannot use: a failed read or
    parse, a top-level value that is not an object and an [info_cache]
    member that is not an object all give an absent result; a [profile]
    member that is not an object makes the inner [get] raise. *)
Lemma resolver_unusable_file (w : World) (n : string) (s : State) :
  (forall e, local_state w (reads s) = Exc e ->
             fst (find_profile_dir_by_display_name w n s) = Ret None) /\
  (forall data, local_state w (reads s) = Ret data ->
                isinstance_dict data = false ->
                fst (find_profile_dir_by_display_name w n s) = Ret None) /\
  (forall top prof,
      local_state w (reads s) = Ret (JObj top) ->
      dict_get top "profile" (JObj []) = JObj prof ->
      isinstance_dict (dict_get prof "info_cache" JNull) = false ->
      fst (find_profile_dir_by_display_name w n s) = Ret None) /\
  (forall top,
      local_state w (reads s) = Ret (JObj top) ->
      isinstance_dict (dict_get top "profile" (JObj [])) = false ->
      exists e, fst (find_profile_dir_by_display_name w n s) = Exc e).
Proof.
  repeat apply conj.
  - intros e L. now rewrite (resolver_unreadable _ _ _ _ L).
  - intros data L D. rewrite (resolver_loaded _ _ _ _ L).
    now rewrite (read_info_cache_not_dict _ D).
  - intros top prof L P C. rewrite (resolver_loaded _ _ _ _ L).
    unfold read_info_cache. simpl. rewrite P. simpl.
    now destruct (dict_get prof "info_cache" JNull).
  - intros top L P. rewrite (resolver_loaded _ _ _ _ L).
    unfold read_info_cache. simpl.
    destruct (dict_get top "profile" (JObj [])); simpl in *;
      try discriminate; eauto.
Qed.

(** C5 at the document [{"profile": 5}]: the file is read and parsed, its
    top-level value is an object, and [AttributeError] leaves the resolver,
    and then [main], instead of an absent result. *)
Theorem C5_profile_not_object_raises
        (n : string) (argv : list string) (direct other : outcome unit) :
  let w := world_of (Ret profile_number_config) direct other in
  let e := mk_exn AttributeError "'int' object has no attribute 'get'" in
  find_profile_dir_by_display_name w n initial = (Exc e, after_read initial) /\
  main w argv initial = (Exc e, after_read initial).
Proof.
  split; reflexivity.
Qed.

(** C9. A directory name the resolver returns is a key of the info cache of
    the document it read. *)
Theorem C9_resolved_is_a_key
        (w : World) (s : State) (n : string) (dir : string) :
  fst (find_profile_dir_by_display_name w n s) = Ret (Some dir) ->
  exists data items,
    local_state w (reads s) = Ret data /\
    has_info_cache data items /\
    In dir (map fst items).
Proof.
  destruct (local_state w (reads s)) as [data|e] eqn:L.
  - rewrite (resolver_loaded _ _ _ _ L). simpl.
    destruct (read_info_cache data) as [[| | | | | |items]|e] eqn:C;
      try discriminate.
    intros [= R]. exists data, items. split; [reflexivity|].
    split; [now apply read_info_cache_iff|].
    unfold resolve in R.
    destruct (primary_pass items n) as [d|] eqn:P.
    + injection R as <-. rewrite primary_pass_first_dir in P.
      exact (first_dir_key _ _ _ P).
    + rewrite secondary_pass_first_dir in R.
      exact (first_dir_key _ _ _ R).
  - rewrite (resolver_unreadable _ _ _ _ L). discriminate.
Qed.

Lemma C9_resolved_is_a_key_witness :
  exists data items,
    local_state (world_of (Ret scenario_config) (Ret tt) (Ret tt))
                (reads initial) = Ret data /\
    has_info_cache data items /\
    In "Profile 2" (map fst items).
Proof.
  apply (C9_resolved_is_a_key
           (world_of (Ret scenario_config) (Ret tt) (Ret tt))
           initial "telecomdesign.fr" "Profile 2").
  reflexivity.
Defined.

(** ** The entry point on an unresolved name *)

Lemma resolver_state (w : World) (n : string) (s : State) :
  snd (find_profile_dir_by_display_name w n s) = after_read s.
Proof.
  destruct (local_state w (reads s)) as [data|e] eqn:L.
  - now rewrite (resolver_loaded _ _ _ _ L).
  - now rewrite (resolver_unreadable _ _ _ _ L).
Qed.

Lemma resolve_none (items : pydict) (n : string) :
  (forall d i, In (d, i) items ->
               ~ field_is i "name" n /\
               ~ field_is i "gaia_name" n /\
               ~ field_is i "user_name" n) ->
  resolve items n = None.
Proof.
  intros H. unfold resolve.
  rewrite primary_pass_first_dir, secondary_pass_first_dir.
  replace (first_dir (name_matches n) items) with (@None string).
  - apply first_dir_none. intros d i Hin.
    apply identity_matches_false_iff. destruct (H d i Hin) as (_ & G & U).
    now intros [?|?].
  - symmetry. apply first_dir_none. intros d i Hin.
    apply name_matches_false_iff. now destruct (H d i Hin).
Qed.

Lemma dict_get_cases (d : pydict) (key : string) (dflt : json) :
  (forall dflt', dict_get d key dflt' = dflt') \/
  (forall dflt', dict_get d key dflt' = dict_get d key dflt).
Proof.
  induction d as [|[k v] d IH]; simpl.
  - now left.
  - destruct (String.eqb k key); [now right | exact IH].
Qed.

(** X11. A readable document without an info cache: when the resolver's
    lookup ends on a value that is not an object, only the diagnostic is
    printed and the status is 2. *)
Lemma main_without_cache (w : World) (argv : list string) (data v : json) :
  local_state w 0 = Ret data ->
  local_state w 1 = Ret data ->
  read_info_cache data = Ret v ->
  isinstance_dict v = false ->
  main w argv initial =
  (Ret 2%Z,
   mk_State 2 [EPrint Stderr (not_found_message (desired_display_name argv))]).
Proof.
  intros L0 L1 C V.
  assert (R : find_profile_dir_by_display_name
                w (desired_display_name argv) initial
              = (Ret None, after_read initial)).
  { rewrite (resolver_loaded w _ initial _ L0), C.
    destruct v; simpl in V; try discriminate; reflexivity. }
  rewrite (main_unresolved _ _ _ _ _ R (or_introl eq_refl)).
  unfold report_not_found, bind, try_except, print, load_local_state, lift, ret.
  simpl. rewrite L1.
  destruct data as [| | | | | |top]; try reflexivity.
  unfold read_info_cache in C. simpl in C. simpl.
  destruct (dict_get top "profile" (JObj [])) as [| | | | | |prof];
    try reflexivity.
  simpl in C. injection C as C. simpl.
  destruct (dict_get_cases prof "info_cache" JNull) as [A|A].
  - now rewrite A.
  - rewrite A, C. destruct v; simpl in V; try discriminate; reflexivity.
Qed.

(** C6, as the script has it.  When the Local State file is readable, holds
    an info cache and no record of it matches the requested display name, the
    program prints the diagnostic that quotes the requested name on the error
    stream and the status handed to [sys.exit] is 2.  The listing has, after
    the header that announces a non-empty cache, one line per entry of the
    cache, in order, each showing the entry's directory name and its [name]
    member ([None] when the record is not an object or has none); of these
    lines the program prints those before the first one standard output
    refuses, and all of them, as many as the cache has entries, when
    standard output accepts every line. *)
Theorem C6_unmatched_name_lists_profiles
        (w : World) (argv : list string) (data : json) (items : pydict) :
  local_state w 0 = Ret data ->
  local_state w 1 = Ret data ->
  has_info_cache data items ->
  (forall d i, In (d, i) items ->
               ~ field_is i "name" (desired_display_name argv) /\
               ~ field_is i "gaia_name" (desired_display_name argv) /\
               ~ field_is i "user_name" (desired_display_name argv)) ->
  exists lines,
    length lines = length items /\
    (forall k d info,
        nth_error items k = Some (d, info) ->
        exists shown,
          nth_error lines k = Some ("- " ++ d ++ " (name: " ++ shown ++ ")") /\
          shown =
          match info with
          | JObj fields =>
              match dict_get fields "name" JNull with
              | JStr name => name
              | JNull => "None"
              | JBool true => "True"
              | JBool false => "False"
              | JInt z => NilZero.string_of_int (Z.to_int z)
              | other => format_other w other
              end
          | _ => "None"
          end) /\
    main w argv initial =
    (Ret 2%Z,
     mk_State 2
       (EPrint Stderr
          ("Chrome profile not found by display name: '"
             ++ desired_display_name argv ++ "'.")
        :: map (EPrint Stdout)
               (accepted_prefix (stdout_write w)
                                (header_lines items ++ lines)))%list) /\
    ((forall line, In line (header_lines items ++ lines)%list ->
                   stdout_write w line = Ret tt) ->
     main w argv initial =
     (Ret 2%Z,
      mk_State 2
        (EPrint Stderr
           ("Chrome profile not found by display name: '"
              ++ desired_display_name argv ++ "'.")
         :: map (EPrint Stdout) (header_lines items ++ lines))%list)).
Proof.
  intros L0 L1 C Hnone. exists (profile_lines w items).
  assert (Run : main w argv initial =
                (Ret 2%Z,
                 mk_State 2
                   (EPrint Stderr (not_found_message (desired_display_name argv))
                    :: map (EPrint Stdout)
                           (accepted_prefix
                              (stdout_write w)
                              (header_lines items ++ profile_lines w items)))%list)).
  { assert (R : find_profile_dir_by_display_name
                  w (desired_display_name argv) initial
                = (Ret None, after_read initial)).
    { rewrite (resolver_on_cache w _ initial _ _ L0 C).
      now rewrite (resolve_none _ _ Hnone). }
    rewrite (main_unresolved _ _ _ _ _ R (or_introl eq_refl)).
    now rewrite (report_not_found_on_cache w _ (after_read initial) _ _ L1 C). }
  repeat apply conj.
  - apply length_map.
  - intros k d info Hk. eexists. split.
    + unfold profile_lines. rewrite nth_error_map, Hk. simpl.
      unfold profile_line. reflexivity.
    + destruct info as [| | | | | |fields]; try reflexivity.
      destruct (dict_get fields "name" JNull) as [|[]| | | | |]; reflexivity.
  - exact Run.
  - intros Hall. rewrite Run. now rewrite (accepted_prefix_all _ _ Hall).
Qed.

Lemma C6_unmatched_name_lists_profiles_witness :
  let items :=
    [("Default", JObj [("name", JStr "alice@example.com")]);
     ("Profile 1", JInt 3);
     ("Profile 2", JObj [("name", JInt (-42)); ("user_name", JStr "carol")]);
     ("Profile 3", JObj [("name", JBool true)])] in
  let data := JObj [("profile", JObj [("info_cache", JObj items)])] in
  let w := world_of (Ret data) (Ret tt) (Ret tt) in
  let argv := ["ouvprofilchrome.py"; "bob@example.com"] in
  exists lines,
    length lines = 4%nat /\
    nth_error lines 0 = Some "- Default (name: alice@example.com)" /\
    nth_error lines 1 = Some "- Profile 1 (name: None)" /\
    nth_error lines 2 = Some "- Profile 2 (name: -42)" /\
    nth_error lines 3 = Some "- Profile 3 (name: True)" /\
    main w argv initial =
    (Ret 2%Z,
     mk_State 2
       (EPrint Stderr "Chrome profile not found by display name: 'bob@example.com'."
        :: EPrint Stdout "Available profiles:"
        :: map (EPrint Stdout) lines)).
Proof.
  intros items data w argv.
  destruct (C6_unmatched_name_lists_profiles w argv data items eq_refl eq_refl)
    as (lines & Hlen & Hnth & _ & Hall).
  - find_cache.
  - intros d i [[= <- <-]|[[= <- <-]|[[= <- <-]|[[= <- <-]|[]]]]];
      repeat split; no_field.
  - exists lines. split; [exact Hlen|].
    destruct (Hnth 0%nat _ _ eq_refl) as (s0 & N0 & ->).
    destruct (Hnth 1%nat _ _ eq_refl) as (s1 & N1 & ->).
    destruct (Hnth 2%nat _ _ eq_refl) as (s2 & N2 & ->).
    destruct (Hnth 3%nat _ _ eq_refl) as (s3 & N3 & ->).
    repeat split; [exact N0 | exact N1 | exact N2 | exact N3 |].
    apply Hall. intros line _. reflexivity.
Defined.

(** C6, as stated, fails when standard output refuses a line.  The cache has
    three entries, none matching the requested name; the second entry's
    directory name holds a lone surrogate (the JSON escape [\ud800], here as
    the bytes that stand for it), which standard output cannot encode.  The
    [print] of its line raises inside the [try] of lines 88-98, the listing
    ends there, and one line is printed for three entries. *)
Lemma C6_listing_cut_short :
  let items :=
    [("A", JObj [("name", JStr "a")]);
     ("B" ++ lone_surrogate, JObj [("name", JStr "b")]);
     ("C", JObj [("name", JStr "c")])] in
  let data := JObj [("profile", JObj [("info_cache", JObj items)])] in
  let w := mk_World (fun _ => Ret data) (fun _ => Ret tt) (fun _ => "?")
                    ascii_stdout in
  let argv := ["ouvprofilchrome.py"; "work"] in
  has_info_cache data items /\
  (forall d i, In (d, i) items ->
               ~ field_is i "name" (desired_display_name argv) /\
               ~ field_is i "gaia_name" (desired_display_name argv) /\
               ~ field_is i "user_name" (desired_display_name argv)) /\
  length items = 3%nat /\
  main w argv initial =
  (Ret 2%Z,
   mk_State 2
     [EPrint Stderr "Chrome profile not found by display name: 'work'.";
      EPrint Stdout "Available profiles:";
      EPrint Stdout "- A (name: a)"]).
Proof.
  intros items data w argv. split; [find_cache|]. split.
  - intros d i [[= <- <-]|[[= <- <-]|[[= <- <-]|[]]]]; repeat split; no_field.
  - split; reflexivity.
Qed.

(** C10. When the resolver returns the empty string as directory name, the
    entry point takes the not-found path: the rest of the program is that
    path's run, nothing is spawned and the status handed to [sys.exit] is
    2. *)
Theorem C10_empty_directory_is_absent
        (w : World) (argv : list string) (s : State) :
  fst (find_profile_dir_by_display_name w (desired_display_name argv) s)
  = Ret (Some "") ->
  main w argv s
  = report_not_found w (desired_display_name argv) (after_read s) /\
  fst (main w argv s) = Ret 2%Z /\
  spawns (emitted s (snd (main w argv s))) = [].
Proof.
  intros R.
  assert (R' : find_profile_dir_by_display_name w (desired_display_name argv) s
               = (Ret (Some ""), after_read s)).
  { pose proof (resolver_state w (desired_display_name argv) s) as St.
    destruct (find_profile_dir_by_display_name w (desired_display_name argv) s)
      as [r s'].
    simpl in R, St. now subst. }
  rewrite (main_unresolved _ _ _ _ _ R' (or_intror eq_refl)).
  split; [reflexivity|].
  destruct (report_not_found_run w (desired_display_name argv) (after_read s))
    as (evs & -> & Hevs).
  simpl. split; [reflexivity|].
  rewrite emitted_app. simpl. exact Hevs.
Qed.

Lemma C10_empty_directory_is_absent_witness :
  let w := world_of (Ret empty_key_config) (Ret tt) (Ret tt) in
  let argv := ["ouvprofilchrome.py"; "work"] in
  main w argv initial
  = report_not_found w (desired_display_name argv) (after_read initial) /\
  fst (main w argv initial) = Ret 2%Z /\
  spawns (emitted initial (snd (main w argv initial))) = [].
Proof.
  intros w argv.
  apply (C10_empty_directory_is_absent w argv initial).
  reflexivity.
Defined.

(** ** The default display name *)

(** C7. Without a command-line argument the requested display name is the
    fixed default [telecomdesign.fr]; on the scenario's document the resolver
    then returns [Profile 2], the rest of the program is the launcher's run
    on it, and the direct command is spawned with
    [--profile-directory=Profile 2]. *)
Theorem C7_default_name_scenario (w : World) (argv : list string) :
  (length argv <= 1)%nat ->
  local_state w 0 = Ret scenario_config ->
  desired_display_name argv = "telecomdesign.fr" /\
  fst (find_profile_dir_by_display_name w (desired_display_name argv) initial)
  = Ret (Some "Profile 2") /\
  main w argv initial
  = launch_chrome_with_profile w "Profile 2" (after_read initial) /\
  In (ESpawn ["/Applications/Google Chrome.app/Contents/MacOS/Google Chrome";
              "--profile-directory=Profile 2"])
     (log (snd (main w argv initial))).
Proof.
  intros Hlen L.
  assert (N : desired_display_name argv = "telecomdesign.fr").
  { unfold desired_display_name.
    destruct (Nat.ltb_spec 1 (length argv)); [lia | reflexivity]. }
  assert (R : find_profile_dir_by_display_name w (desired_display_name argv) initial
              = (Ret (Some "Profile 2"), after_read initial)).
  { rewrite N. now rewrite (resolver_loaded w _ initial _ L). }
  split; [exact N|]. split; [now rewrite R|].
  rewrite (main_resolved _ _ _ _ _ R eq_refl).
  split; [reflexivity|].
  destruct (launch_returns w "Profile 2" (after_read initial))
    as (status & evs & -> & _).
  now left.
Qed.

Lemma C7_default_name_scenario_witness :
  let w := world_of (Ret scenario_config) (Ret tt) (Ret tt) in
  let argv := ["ouvprofilchrome.py"] in
  desired_display_name argv = "telecomdesign.fr" /\
  fst (find_profile_dir_by_display_name w (desired_display_name argv) initial)
  = Ret (Some "Profile 2") /\
  main w argv initial
  = launch_chrome_with_profile w "Profile 2" (after_read initial) /\
  In (ESpawn ["/Applications/Google Chrome.app/Contents/MacOS/Google Chrome";
              "--profile-directory=Profile 2"])
     (log (snd (main w argv initial))).
Proof.
  intros w argv.
  apply (C7_default_name_scenario w argv).
  - simpl. lia.
  - reflexivity.
Defined.

(** ** Records of unexpected shape *)

(** C8. A value that is not a string never compares equal to the requested
    name.  In the primary pass an entry whose record is not an object, or
    whose [name] member is absent or not a string, is passed over: the pass
    returns what it returns without that entry.  The same holds in the
    secondary pass for an entry whose record is not an object or whose
    [gaia_name] and [user_name] members are both absent or not strings.
    Whatever the records of the info cache are, the resolver returns and
    raises nothing. *)
Theorem C8_malformed_records_skipped
        (n : string) (pre post : pydict) (d : string) (info : json) :
  (forall v, (forall t, v <> JStr t) -> py_eq_str v n = false) /\
  (field_unusable info "name" ->
   primary_pass (pre ++ (d, info) :: post)%list n
   = primary_pass (pre ++ post)%list n) /\
  (field_unusable info "gaia_name" -> field_unusable info "user_name" ->
   secondary_pass (pre ++ (d, info) :: post)%list n
   = secondary_pass (pre ++ post)%list n) /\
  (forall w s data items,
      local_state w (reads s) = Ret data ->
      has_info_cache data items ->
      exists r, fst (find_profile_dir_by_display_name w n s) = Ret r).
Proof.
  repeat apply conj.
  - intros v Hv. now apply py_eq_str_not_str.
  - intros Hname. rewrite !primary_pass_first_dir.
    apply first_dir_skip. now apply unusable_name.
  - intros Hgaia Huser. rewrite !secondary_pass_first_dir.
    apply first_dir_skip. now apply unusable_identity.
  - intros w s data items L C.
    rewrite (resolver_on_cache _ _ _ _ _ L C). simpl. eauto.
Qed.

(** * Further properties of the three functions *)

(** ** What the resolver returns, on every file *)

Lemma resolver_some_inv (w : World) (n : string) (s : State) (dir : string) :
  fst (find_profile_dir_by_display_name w n s) = Ret (Some dir) ->
  exists data items info,
    local_state w (reads s) = Ret data /\
    has_info_cache data items /\
    In (dir, info) items /\
    (field_is info "name" n \/
     field_is info "gaia_name" n \/ field_is info "user_name" n).
Proof.
  destruct (local_state w (reads s)) as [data|e] eqn:L.
  - rewrite (resolver_loaded _ _ _ _ L). simpl.
    destruct (read_info_cache data) as [[| | | | | |items]|e] eqn:C;
      try discriminate.
    intros [= R]. exists data, items. unfold resolve in R.
    destruct (primary_pass items n) as [d|] eqn:P.
    + injection R as <-. rewrite primary_pass_first_dir in P.
      destruct (first_dir_some _ _ _ P) as (pre & info & post & -> & M & _).
      exists info. repeat split; [now apply read_info_cache_iff | |].
      * apply in_app_iff. right. now left.
      * left. now apply name_matches_iff.
    + rewrite secondary_pass_first_dir in R.
      destruct (first_dir_some _ _ _ R) as (pre & info & post & -> & M & _).
      exists info. repeat split; [now apply read_info_cache_iff | |].
      * apply in_app_iff. right. now left.
      * right. now apply identity_matches_iff.
  - rewrite (resolver_unreadable _ _ _ _ L). discriminate.
Qed.

(** X1. Whatever the file holds and whatever the outcome, an exception
    included, a call of the resolver reads the Local State file exactly once
    and prints and spawns nothing. *)
Theorem resolver_only_reads (w : World) (n : string) (s : State) :
  reads (snd (find_profile_dir_by_display_name w n s)) = S (reads s) /\
  log (snd (find_profile_dir_by_display_name w n s)) = log s.
Proof.
  rewrite resolver_state. split; reflexivity.
Qed.

(** X2. An exception leaves the resolver exactly when the file was read and
    parsed, its top-level value is an object, and that object's [profile]
    member is present and is not an object; the exception is then the
    [AttributeError] of the inner [get], whose message names the type of
    that member. *)
Theorem resolver_raises_iff (w : World) (n : string) (s : State) (e : exn) :
  fst (find_profile_dir_by_display_name w n s) = Exc e <->
  exists top,
    local_state w (reads s) = Ret (JObj top) /\
    isinstance_dict (dict_get top "profile" (JObj [])) = false /\
    e = mk_exn AttributeError
               ("'" ++ py_type_name (dict_get top "profile" (JObj []))
                    ++ "' object has no attribute 'get'").
Proof.
  destruct (local_state w (reads s)) as [data|e0] eqn:L.
  - rewrite (resolver_loaded _ _ _ _ L). unfold read_info_cache.
    destruct data as [| | | | | |top]; simpl;
      try (split; [discriminate | intros (top & T & _); discriminate T]).
    destruct (dict_get top "profile" (JObj [])) as [| | | | | |prof] eqn:P;
      simpl.
    7: { split.
         - destruct (dict_get prof "info_cache" JNull); discriminate.
         - intros (top' & [= <-] & H & _). rewrite P in H. discriminate H. }
    all: split;
      [ intros [= <-]; exists top; rewrite P; repeat split
      | intros (top' & [= <-] & _ & ->); rewrite P; reflexivity ].
  - rewrite (resolver_unreadable _ _ _ _ L). simpl.
    split; [discriminate | intros (top & T & _); discriminate T].
Qed.

(** X3. A directory name the resolver returns is the key of a record of the
    info cache whose [name], [gaia_name] or [user_name] member is the
    requested string. *)
Theorem resolver_returns_matching_record
        (w : World) (n : string) (s : State) (dir : string) :
  fst (find_profile_dir_by_display_name w n s) = Ret (Some dir) ->
  exists data items info,
    local_state w (reads s) = Ret data /\
    has_info_cache data items /\
    In (dir, info) items /\
    (field_is info "name" n \/
     field_is info "gaia_name" n \/ field_is info "user_name" n).
Proof.
  exact (resolver_some_inv w n s dir).
Qed.

Lemma resolver_returns_matching_record_witness :
  exists data items info,
    local_state (world_of (Ret scenario_config) (Ret tt) (Ret tt))
                (reads initial) = Ret data /\
    has_info_cache data items /\
    In ("Default", info) items /\
    (field_is info "name" "alice@example.com" \/
     field_is info "gaia_name" "alice@example.com" \/
     field_is info "user_name" "alice@example.com").
Proof.
  apply (resolver_returns_matching_record
           (world_of (Ret scenario_config) (Ret tt) (Ret tt))
           "alice@example.com" initial "Default").
  reflexivity.
Defined.

(** X4. On a file that holds an info cache the resolver's result is absent
    exactly when no record of the cache has the requested string as its
    [name], [gaia_name] or [user_name] member. *)
Theorem resolver_absent_iff_no_match
        (w : World) (n : string) (s : State) (data : json) (items : pydict) :
  local_state w (reads s) = Ret data ->
  has_info_cache data items ->
  (fst (find_profile_dir_by_display_name w n s) = Ret None <->
   forall d i, In (d, i) items ->
               ~ field_is i "name" n /\
               ~ field_is i "gaia_name" n /\
               ~ field_is i "user_name" n).
Proof.
  intros L C. rewrite (resolver_on_cache _ _ _ _ _ L C). simpl. split.
  - intros [= R]. unfold resolve in R.
    destruct (primary_pass items n) as [dir|] eqn:P; [discriminate|].
    rewrite primary_pass_first_dir in P. rewrite secondary_pass_first_dir in R.
    intros d i Hin.
    pose proof (proj1 (first_dir_none _ _) P d i Hin) as A.
    pose proof (proj1 (first_dir_none _ _) R d i Hin) as B.
    apply name_matches_false_iff in A.
    apply identity_matches_false_iff in B. tauto.
  - intros H. now rewrite (resolve_none _ _ H).
Qed.

Lemma resolver_absent_iff_no_match_witness :
  fst (find_profile_dir_by_display_name
         (world_of (Ret scenario_config) (Ret tt) (Ret tt))
         "bob@example.com" initial) = Ret None <->
  forall d i,
    In (d, i) [("Default", JObj [("name", JStr "alice@example.com")]);
               ("Profile 2", JObj [("name", JStr "telecomdesign.fr")])] ->
    ~ field_is i "name" "bob@example.com" /\
    ~ field_is i "gaia_name" "bob@example.com" /\
    ~ field_is i "user_name" "bob@example.com".
Proof.
  apply (resolver_absent_iff_no_match
           (world_of (Ret scenario_config) (Ret tt) (Ret tt))
           "bob@example.com" initial scenario_config).
  - reflexivity.
  - find_cache.
Defined.

(** X5. When the file holds no info cache (it cannot be read or parsed, or
    the parsed value has no object under [profile.info_cache]) and the
    [profile] member, if any, is an object, the resolver's result is
    absent. *)
Theorem resolver_absent_without_cache (w : World) (n : string) (s : State) :
  (forall data items,
      local_state w (reads s) = Ret data -> ~ has_info_cache data items) ->
  (forall top,
      local_state w (reads s) = Ret (JObj top) ->
      isinstance_dict (dict_get top "profile" (JObj [])) = true) ->
  fst (find_profile_dir_by_display_name w n s) = Ret None.
Proof.
  intros Hcache Hprofile.
  destruct (local_state w (reads s)) as [data|e] eqn:L.
  - rewrite (resolver_loaded _ _ _ _ L).
    destruct (read_info_cache data) as [v|e] eqn:C.
    + destruct v; try reflexivity.
      apply read_info_cache_iff in C. now elim (Hcache data items eq_refl).
    + unfold read_info_cache in C.
      destruct data as [| | | | | |top]; simpl in C; try discriminate.
      specialize (Hprofile top eq_refl).
      destruct (dict_get top "profile" (JObj [])); simpl in *; discriminate.
  - now rewrite (resolver_unreadable _ _ _ _ L).
Qed.

Lemma resolver_absent_without_cache_witness :
  fst (find_profile_dir_by_display_name
         (world_of (Ret (JObj [("profile", JObj [("info_cache", JArr [])])]))
                   (Ret tt) (Ret tt))
         "work" initial) = Ret None.
Proof.
  apply (resolver_absent_without_cache
           (world_of (Ret (JObj [("profile", JObj [("info_cache", JArr [])])]))
                     (Ret tt) (Ret tt))
           "work" initial).
  - intros data items [= <-] (top & prof & [= <-] & P & C).
    injection P as <-. discriminate C.
  - intros top [= <-]. reflexivity.
Defined.

(** ** What the launcher does besides returning a status *)

Lemma launch_shape (w : World) (profile_dir : string) (s : State) :
  exists status evs,
    launch_chrome_with_profile w profile_dir s =
    (Ret status, mk_State (reads s) (log s ++ evs)%list) /\
    (spawns evs = [ESpawn (direct_argv profile_dir)] \/
     spawns evs = [ESpawn (direct_argv profile_dir);
                   ESpawn (open_argv profile_dir)]) /\
    ((status = 0%Z /\ filter (fun e => negb (is_spawn e)) evs = []) \/
     (status = 1%Z /\
      exists line,
        filter (fun e => negb (is_spawn e)) evs = [EPrint Stderr line])).
Proof.
  destruct (popen w (direct_argv profile_dir)) as [[]|e] eqn:D.
  - rewrite (launch_direct_ok _ _ _ D).
    do 2 eexists. split; [reflexivity|]. simpl.
    split; [now left | left; now split].
  - destruct (is_FileNotFoundError e) eqn:F.
    + destruct (popen w (open_argv profile_dir)) as [[]|e'] eqn:O.
      * rewrite (launch_fallback_ok _ _ _ _ D F O).
        do 2 eexists. split; [reflexivity|]. simpl.
        split; [now right | left; now split].
      * rewrite (launch_fallback_fails _ _ _ _ _ D F O).
        do 2 eexists. split; [reflexivity|]. simpl.
        split; [now right | right; split; [reflexivity | eexists; reflexivity]].
    + rewrite (launch_direct_fails _ _ _ _ D F).
      do 2 eexists. split; [reflexivity|]. simpl.
      split; [now left | right; split; [reflexivity | eexists; reflexivity]].
Qed.

(** X6. Every run of the launcher returns a status and raises nothing; it
    does not read the Local State file; it spawns the direct command, and
    after it at most the [open] command; it prints nothing when it returns
    0, and exactly one line, on the error stream, when it returns 1. *)
Theorem launcher_reports_iff_fails
        (w : World) (profile_dir : string) (s : State) :
  exists status evs,
    launch_chrome_with_profile w profile_dir s =
    (Ret status, mk_State (reads s) (log s ++ evs)%list) /\
    (spawns evs = [ESpawn (direct_argv profile_dir)] \/
     spawns evs = [ESpawn (direct_argv profile_dir);
                   ESpawn (open_argv profile_dir)]) /\
    ((status = 0%Z /\ filter (fun e => negb (is_spawn e)) evs = []) \/
     (status = 1%Z /\
      exists line,
        filter (fun e => negb (is_spawn e)) evs = [EPrint Stderr line])).
Proof.
  exact (launch_shape w profile_dir s).
Qed.

(** ** The three ways a run of the entry point can go *)

Lemma emitted_after_read (s : State) (r : nat) (evs : list event) :
  emitted s (mk_State r (log (after_read s) ++ evs)%list) = evs.
Proof. exact (emitted_app s r evs). Qed.

Lemma emitted_nothing (s : State) : emitted s (after_read s) = [].
Proof.
  unfold emitted. simpl. induction (log s); simpl; auto.
Qed.

Lemma in_spawns (cmd : list string) (evs : list event) :
  In (ESpawn cmd) evs <-> In (ESpawn cmd) (spawns evs).
Proof.
  unfold spawns. rewrite filter_In. simpl. tauto.
Qed.

Lemma main_cases (w : World) (argv : list string) (s : State) :
  let n := desired_display_name argv in
  (exists e,
      fst (find_profile_dir_by_display_name w n s) = Exc e /\
      main w argv s = (Exc e, after_read s)) \/
  (exists dir,
      fst (find_profile_dir_by_display_name w n s) = Ret (Some dir) /\
      dir <> "" /\
      main w argv s = launch_chrome_with_profile w dir (after_read s)) \/
  ((fst (find_profile_dir_by_display_name w n s) = Ret None \/
    fst (find_profile_dir_by_display_name w n s) = Ret (Some "")) /\
   main w argv s = report_not_found w n (after_read s)).
Proof.
  intros n.
  pose proof (resolver_state w n s) as St.
  destruct (find_profile_dir_by_display_name w n s) as [r s'] eqn:R.
  simpl in St. subst s'. simpl.
  destruct r as [[dir|]|e].
  - destruct (str_truthy dir) eqn:T.
    + right. left. exists dir. split; [reflexivity|].
      split; [now apply str_truthy_iff|].
      exact (main_resolved _ _ _ _ _ R T).
    + right. right. destruct dir; [|discriminate T].
      split; [now right|].
      exact (main_unresolved _ _ _ _ _ R (or_intror eq_refl)).
  - right. right. split; [now left|].
    exact (main_unresolved _ _ _ _ _ R (or_introl eq_refl)).
  - left. exists e. split; [reflexivity|].
    unfold main, bind. fold n. now rewrite R.
Qed.

(** X7. Every command a run of the program spawns is the direct command or
    the [open] command for a directory name that is a key of the info cache
    the program read first, and that is not the empty string: the program
    never starts Chrome on a directory the cache does not list. *)
Theorem main_spawns_only_cache_keys
        (w : World) (argv : list string) (s : State) (cmd : list string) :
  In (ESpawn cmd) (emitted s (snd (main w argv s))) ->
  exists data items dir,
    local_state w (reads s) = Ret data /\
    has_info_cache data items /\
    In dir (map fst items) /\
    dir <> "" /\
    (cmd = direct_argv dir \/ cmd = open_argv dir).
Proof.
  destruct (main_cases w argv s) as [(e & _ & M)|[(dir & R & T & M)|(_ & M)]];
    rewrite M.
  - simpl. rewrite emitted_nothing. intros [].
  - destruct (resolver_some_inv _ _ _ _ R)
      as (data & items & info & L & C & Hin & _).
    destruct (launch_shape w dir (after_read s))
      as (status & evs & -> & Hsp & _).
    simpl snd. rewrite emitted_after_read. intros Hcmd.
    exists data, items, dir. repeat split; auto.
    + apply in_map_iff. now exists (dir, info).
    + apply in_spawns in Hcmd.
      destruct Hsp as [Hsp|Hsp]; rewrite Hsp in Hcmd; simpl in Hcmd.
      * destruct Hcmd as [[= <-]|[]]. now left.
      * destruct Hcmd as [[= <-]|[[= <-]|[]]]; auto.
  - destruct (report_not_found_run w (desired_display_name argv) (after_read s))
      as (evs & -> & Hevs).
    simpl snd. rewrite emitted_after_read. intros Hcmd.
    apply in_spawns in Hcmd. simpl in Hcmd. rewrite Hevs in Hcmd.
    destruct Hcmd.
Qed.

Lemma main_spawns_only_cache_keys_witness :
  exists data items dir,
    local_state (world_of (Ret scenario_config)
                          (Exc (mk_exn FileNotFoundError "no such file"))
                          (Ret tt))
                (reads initial) = Ret data /\
    has_info_cache data items /\
    In dir (map fst items) /\
    dir <> "" /\
    (open_argv "Profile 2" = direct_argv dir \/
     open_argv "Profile 2" = open_argv dir).
Proof.
  apply (main_spawns_only_cache_keys
           (world_of (Ret scenario_config)
                     (Exc (mk_exn FileNotFoundError "no such file"))
                     (Ret tt))
           ["ouvprofilchrome.py"] initial (open_argv "Profile 2")).
  vm_compute. right. left. reflexivity.
Defined.

(** X8. A run of the program ends in one of two ways: it hands 0, 1 or 2 to
    [sys.exit], or it dies of the exception that left the resolver, having
    read the file once and printed and spawned nothing. *)
Theorem main_exit_status (w : World) (argv : list string) (s : State) :
  (exists status,
      fst (main w argv s) = Ret status /\
      (status = 0 \/ status = 1 \/ status = 2)%Z) \/
  (exists e,
      fst (find_profile_dir_by_display_name w (desired_display_name argv) s)
      = Exc e /\
      main w argv s = (Exc e, mk_State (S (reads s)) (log s))).
Proof.
  destruct (main_cases w argv s) as [(e & R & M)|[(dir & _ & _ & M)|(_ & M)]].
  - right. exists e. split; [exact R | exact M].
  - left. rewrite M.
    destruct (launch_shape w dir (after_read s))
      as (status & evs & -> & _ & [[-> _]|[-> _]]); simpl; eauto.
  - left. rewrite M.
    destruct (report_not_found_run w (desired_display_name argv) (after_read s))
      as (evs & -> & _).
    simpl. eauto.
Qed.

Lemma launch_started (w : World) (profile_dir : string) (s : State) :
  exists status evs,
    launch_chrome_with_profile w profile_dir s =
    (Ret status, mk_State (reads s) (log s ++ evs)%list) /\
    (status = 0%Z <->
     exists cmd, In (ESpawn cmd) evs /\ popen w cmd = Ret tt).
Proof.
  destruct (popen w (direct_argv profile_dir)) as [[]|e] eqn:D.
  - rewrite (launch_direct_ok _ _ _ D).
    do 2 eexists. split; [reflexivity|]. split; [|reflexivity].
    intros _. exists (direct_argv profile_dir). split; [now left | exact D].
  - destruct (is_FileNotFoundError e) eqn:F.
    + destruct (popen w (open_argv profile_dir)) as [[]|e'] eqn:O.
      * rewrite (launch_fallback_ok _ _ _ _ D F O).
        do 2 eexists. split; [reflexivity|]. split; [|reflexivity].
        intros _. exists (open_argv profile_dir).
        split; [right; now left | exact O].
      * rewrite (launch_fallback_fails _ _ _ _ _ D F O).
        do 2 eexists. split; [reflexivity|]. split; [discriminate|].
        intros (cmd & [[= <-]|[[= <-]|[E|[]]]] & P); congruence.
    + rewrite (launch_direct_fails _ _ _ _ D F).
      do 2 eexists. split; [reflexivity|]. split; [discriminate|].
      intros (cmd & [[= <-]|[E|[]]] & P); congruence.
Qed.

(** X9. When the program hands a status to [sys.exit], the status is 2
    exactly when the run called [subprocess.Popen] not at all, and 0 exactly
    when one of its calls of [Popen] succeeded, so that 1 means that every
    call raised.  A run that ends with 2 has read the Local State file
    twice, a run that ends with 0 or 1 once. *)
Theorem main_exit_2_iff_no_spawn
        (w : World) (argv : list string) (s : State) (status : Z) :
  fst (main w argv s) = Ret status ->
  (status = 2%Z <-> spawns (emitted s (snd (main w argv s))) = []) /\
  (status = 0%Z <->
   exists cmd,
     In (ESpawn cmd) (emitted s (snd (main w argv s))) /\
     popen w cmd = Ret tt) /\
  reads (snd (main w argv s))
  = (reads s + (if (status =? 2)%Z then 2 else 1))%nat.
Proof.
  destruct (main_cases w argv s) as [(e & _ & M)|[(dir & _ & _ & M)|(_ & M)]];
    rewrite M.
  - discriminate.
  - destruct (launch_shape w dir (after_read s))
      as (st & evs & E & Hsp & Hst).
    destruct (launch_started w dir (after_read s))
      as (st' & evs' & E' & Hok).
    rewrite E in E'. injection E' as <- Hevs.
    apply app_inv_head in Hevs. subst evs'.
    rewrite E. simpl. rewrite emitted_after_read. intros [= <-].
    assert (N : st <> 2%Z) by (destruct Hst as [[-> _]|[-> _]]; discriminate).
    split; [|split].
    + split; [intros A; now elim N|].
      intros A. rewrite A in Hsp. destruct Hsp; discriminate.
    + exact Hok.
    + destruct (Z.eqb_spec st 2); [now elim N | lia].
  - destruct (report_not_found_run w (desired_display_name argv) (after_read s))
      as (evs & -> & Hevs).
    simpl. rewrite emitted_after_read. intros [= <-]. simpl.
    split; [|split].
    + split; auto.
    + split; [discriminate|].
      intros (cmd & [E|Hin] & _); [discriminate E|].
      apply in_spawns in Hin. rewrite Hevs in Hin. destruct Hin.
    + lia.
Qed.

Lemma main_exit_2_iff_no_spawn_witness :
  let w := world_of (Ret scenario_config)
                    (Exc (mk_exn PermissionError "permission denied"))
                    (Ret tt) in
  let argv := ["ouvprofilchrome.py"] in
  (1%Z = 2%Z <-> spawns (emitted initial (snd (main w argv initial))) = []) /\
  (1%Z = 0%Z <->
   exists cmd,
     In (ESpawn cmd) (emitted initial (snd (main w argv initial))) /\
     popen w cmd = Ret tt) /\
  reads (snd (main w argv initial))
  = (reads initial + (if (1 =? 2)%Z then 2 else 1))%nat.
Proof.
  intros w argv.
  apply (main_exit_2_iff_no_spawn w argv initial 1%Z).
  reflexivity.
Defined.

(** ** The not-found path on unusual files *)

(** X10. When the Local State file can be read or parsed neither by the
    resolver nor by the listing, the program prints the not-found diagnostic
    on the error stream and nothing else, spawns nothing, and ends with
    status 2. *)
Theorem main_unreadable_file
        (w : World) (argv : list string) (s : State) (e e' : exn) :
  local_state w (reads s) = Exc e ->
  local_state w (S (reads s)) = Exc e' ->
  main w argv s =
  (Ret 2%Z,
   mk_State (S (S (reads s)))
            (log s ++ [EPrint Stderr
                         ("Chrome profile not found by display name: '"
                            ++ desired_display_name argv ++ "'.")])%list).
Proof.
  intros L0 L1.
  pose proof (resolver_unreadable w (desired_display_name argv) s e L0) as R.
  rewrite (main_unresolved _ _ _ _ _ R (or_introl eq_refl)).
  unfold report_not_found, bind, try_except, print, load_local_state, lift, ret.
  simpl. now rewrite L1.
Qed.

Lemma main_unreadable_file_witness :
  let w := world_of (Exc (mk_exn FileNotFoundError "no such file"))
                    (Ret tt) (Ret tt) in
  main w ["ouvprofilchrome.py"; "work"] initial =
  (Ret 2%Z,
   mk_State 2 [EPrint Stderr
                 "Chrome profile not found by display name: 'work'."]).
Proof.
  intros w.
  apply (main_unreadable_file
           w ["ouvprofilchrome.py"; "work"] initial
           (mk_exn FileNotFoundError "no such file")
           (mk_exn FileNotFoundError "no such file")).
  - reflexivity.
  - reflexivity.
Defined.

Lemma main_without_cache_witness :
  main (world_of (Ret (JArr [JInt 1; JInt 2])) (Ret tt) (Ret tt))
       ["ouvprofilchrome.py"] initial =
  (Ret 2%Z,
   mk_State 2 [EPrint Stderr
                 (not_found_message
                    (desired_display_name ["ouvprofilchrome.py"]))]).
Proof.
  apply (main_without_cache
           (world_of (Ret (JArr [JInt 1; JInt 2])) (Ret tt) (Ret tt))
           ["ouvprofilchrome.py"] (JArr [JInt 1; JInt 2]) JNull).
  - reflexivity.
  - reflexivity.
  - reflexivity.
  - reflexivity.
Defined.

(** X12. The listing shows the file as the second read finds it.  When the
    resolver's result is absent and the second read gives a document with an
    info cache, what is printed after the diagnostic is the header and the
    lines of that cache, up to the first line standard output refuses,
    whatever the first read gave; a record of it that matches the requested
    name is listed and not launched. The status is 2. *)
Theorem listing_uses_second_read
        (w : World) (argv : list string) (s : State)
        (data : json) (items : pydict) :
  fst (find_profile_dir_by_display_name w (desired_display_name argv) s)
  = Ret None ->
  local_state w (S (reads s)) = Ret data ->
  has_info_cache data items ->
  main w argv s =
  (Ret 2%Z,
   mk_State (S (S (reads s)))
            (log s ++ EPrint Stderr (not_found_message (desired_display_name argv))
                   :: map (EPrint Stdout)
                          (accepted_prefix
                             (stdout_write w)
                             (header_lines items ++ profile_lines w items)))%list).
Proof.
  intros R L C.
  destruct (main_cases w argv s) as [(e & R' & _)|[(dir & R' & _)|(_ & M)]];
    try congruence.
  rewrite M.
  exact (report_not_found_on_cache
           w (desired_display_name argv) (after_read s) data items L C).
Qed.

Lemma listing_uses_second_read_witness :
  let w := mk_World
             (fun k => match k with
                       | O => Exc (mk_exn FileNotFoundError "no such file")
                       | S _ => Ret scenario_config
                       end)
             (fun _ => Ret tt) (fun _ => "?") (fun _ => Ret tt) in
  main w ["ouvprofilchrome.py"] initial =
  (Ret 2%Z,
   mk_State 2
     [EPrint Stderr
        "Chrome profile not found by display name: 'telecomdesign.fr'.";
      EPrint Stdout "Available profiles:";
      EPrint Stdout "- Default (name: alice@example.com)";
      EPrint Stdout "- Profile 2 (name: telecomdesign.fr)"]).
Proof.
  intros w.
  apply (listing_uses_second_read
           w ["ouvprofilchrome.py"] initial scenario_config
           [("Default", JObj [("name", JStr "alice@example.com")]);
            ("Profile 2", JObj [("name", JStr "telecomdesign.fr")])]).
  - reflexivity.
  - reflexivity.
  - find_cache.
Defined.

(** ** When the order of the cache does not matter *)

Lemma first_dir_perm (p : json -> bool) (items items' : pydict) :
  Permutation items items' ->
  (forall d1 i1 d2 i2,
      In (d1, i1) items -> In (d2, i2) items ->
      p i1 = true -> p i2 = true -> d1 = d2) ->
  first_dir p items = first_dir p items'.
Proof.
  intros HP Huniq.
  destruct (first_dir p items) as [d|] eqn:A;
    destruct (first_dir p items') as [d'|] eqn:B; auto.
  - destruct (first_dir_some _ _ _ A) as (pre & i & post & E & Hi & _).
    destruct (first_dir_some _ _ _ B) as (pre' & i' & post' & E' & Hi' & _).
    f_equal. apply (Huniq d i d' i'); auto.
    + rewrite E. apply in_app_iff. right. now left.
    + apply (Permutation_in _ (Permutation_sym HP)).
      rewrite E'. apply in_app_iff. right. now left.
  - destruct (first_dir_some _ _ _ A) as (pre & i & post & E & Hi & _).
    assert (Hin : In (d, i) items').
    { apply (Permutation_in _ HP). rewrite E. apply in_app_iff. right. now left. }
    rewrite (proj1 (first_dir_none _ _) B d i Hin) in Hi. discriminate.
  - destruct (first_dir_some _ _ _ B) as (pre & i & post & E & Hi & _).
    assert (Hin : In (d', i) items).
    { apply (Permutation_in _ (Permutation_sym HP)).
      rewrite E. apply in_app_iff. right. now left. }
    rewrite (proj1 (first_dir_none _ _) A d' i Hin) in Hi. discriminate.
Qed.

(** X13. The order of the info cache matters only among records that match.
    If all records whose [name] member is the requested string sit under one
    directory name, the primary pass returns the same on every reordering of
    the cache; likewise the secondary pass, if all records whose [gaia_name]
    or [user_name] member is the requested string sit under one directory
    name. *)
Theorem passes_order_irrelevant (items items' : pydict) (n : string) :
  Permutation items items' ->
  ((forall d1 i1 d2 i2,
       In (d1, i1) items -> In (d2, i2) items ->
       field_is i1 "name" n -> field_is i2 "name" n -> d1 = d2) ->
   primary_pass items n = primary_pass items' n) /\
  ((forall d1 i1 d2 i2,
       In (d1, i1) items -> In (d2, i2) items ->
       field_is i1 "gaia_name" n \/ field_is i1 "user_name" n ->
       field_is i2 "gaia_name" n \/ field_is i2 "user_name" n -> d1 = d2) ->
   secondary_pass items n = secondary_pass items' n).
Proof.
  intros HP. split; intros Huniq.
  - rewrite !primary_pass_first_dir. apply first_dir_perm; [exact HP|].
    intros d1 i1 d2 i2 H1 H2 M1 M2.
    apply (Huniq d1 i1 d2 i2); auto; now apply name_matches_iff.
  - rewrite !secondary_pass_first_dir. apply first_dir_perm; [exact HP|].
    intros d1 i1 d2 i2 H1 H2 M1 M2.
    apply (Huniq d1 i1 d2 i2); auto; now apply identity_matches_iff.
Qed.

Lemma passes_order_irrelevant_witness :
  let a := ("Default", JObj [("name", JStr "alice@example.com")]) in
  let b := ("Profile 2", JObj [("name", JStr "telecomdesign.fr")]) in
  primary_pass [a; b] "telecomdesign.fr"
  = primary_pass [b; a] "telecomdesign.fr".
Proof.
  intros a b.
  apply (passes_order_irrelevant [a; b] [b; a] "telecomdesign.fr").
  - apply perm_swap.
  - intros d1 i1 d2 i2 [[= <- <-]|[[= <- <-]|[]]] [[= <- <-]|[[= <- <-]|[]]] F1 F2;
      try reflexivity; exfalso; [revert F1 | revert F2]; no_field.
Defined.
